(** * Mergington High School activities API

    A shallow embedding of [src/models.py] (the three relations of the
    SQLite store) and of [src/app.py] (the request handlers), followed by
    the properties of signup and unregister.

    The persisted state is the database: every handler opens its own
    session, reads committed rows, queues its changes in the session and
    writes them with a single [db.commit()].  A handler that raises
    [HTTPException] before its commit leaves the database as it found it;
    this is modelled, not assumed: the handlers below run in a small
    session monad whose pending changes reach the database only through
    [commit]. *)

From stdpp Require Import gmap strings list fin_maps.
From Stdlib Require Import ZArith.

Local Open Scope Z_scope.

(** ** models.py *)

Module models.

(** [class Activity(Base)]: a row of table [activities]. *)
Record Activity := mkActivity {
  id : Z;
  name : string;
  description : string;
  schedule : string;
  max_participants : Z
}.

(** [class Participant(Base)]: a row of table [participants]. *)
Record Participant := mkParticipant {
  email : string
}.

(** A row of the association table [activity_participants]: the columns
    [activity_id] and [email].  The table declares no key, so it is a
    list of rows in which a pair could in principle repeat. *)
Definition Association : Type := Z * string.

(** The database file bound to [engine]: one list of rows per table, in
    insertion order. *)
Record Database := mkDatabase {
  activities : list Activity;
  participants : list Participant;
  activity_participants : list Association
}.

#[global] Instance Activity_eq_dec : EqDecision Activity.
Proof. solve_decision. Defined.

#[global] Instance Participant_eq_dec : EqDecision Participant.
Proof. solve_decision. Defined.

(** [Base.metadata.create_all(engine)] on a fresh file: three empty
    tables. *)
Definition create_all : Database := mkDatabase [] [] [].

(** [participant.activities]: the relationship through the secondary
    table, loaded as the join of the association rows carrying the
    participant's email with the activity rows they point to.  A session
    keeps one object per row, so Python's [activity in
    participant.activities] is membership of the row in this list. *)
Definition participant_activities (d : Database) (p : Participant)
  : list Activity :=
  r ← activity_participants d;
  if decide (r.2 = email p)
  then filter (λ a, id a = r.1) (activities d)
  else [].

(** [activity.participants]: the same relationship seen from the
    activity's side. *)
Definition activity_participants_of (d : Database) (a : Activity)
  : list Participant :=
  r ← activity_participants d;
  if decide (r.1 = id a)
  then filter (λ p, email p = r.2) (participants d)
  else [].

(** Python's [list.remove(x)]: drops the first element equal to [x].
    Python raises [ValueError] when there is none; the one caller,
    [unregister_from_activity], removes a participant only after it has
    found the association, so that case is left as the identity here. *)
Fixpoint remove (x : Association) (l : list Association)
  : list Association :=
  match l with
  | [] => []
  | y :: l' => if decide (y = x) then l' else y :: remove x l'
  end.

End models.

Import models.

(** ** app.py *)

Module app.

(** *** Sessions *)

(** [HTTPException(status_code=..., detail=...)]. *)
Record HTTPException := mkHTTPException {
  status_code : Z;
  detail : string
}.

(** How a handler ends: it returns a value or raises. *)
Inductive Outcome (A : Type) :=
| Return (a : A)
| Raise (e : HTTPException).
Arguments Return {A} a.
Arguments Raise {A} e.

(** What a session has queued and not yet written. *)
Inductive Pending :=
| Add_activity (a : Activity)                   (* db.add(activity) *)
| Add_participant (p : Participant)             (* db.add(participant) *)
| Append (a : Activity) (p : Participant)       (* activity.participants.append(p) *)
| Remove (a : Activity) (p : Participant).      (* activity.participants.remove(p) *)

(** A [SessionLocal()] object: the database it is bound to and its unit
    of work.  [autoflush=False]: queries read the database only. *)
Record Session := mkSession {
  bind : Database;
  pending : list Pending
}.

Definition SessionLocal (d : Database) : Session := mkSession d [].

(** The body of a handler: a computation over its session. *)
Definition Request (A : Type) : Type := Session → Outcome A * Session.

#[global] Instance Request_ret : MRet Request :=
  λ A a σ, (Return a, σ).

#[global] Instance Request_bind : MBind Request :=
  λ A B f m σ,
    match m σ with
    | (Return a, σ') => f a σ'
    | (Raise e, σ') => (Raise e, σ')
    end.

(** [raise HTTPException(...)]. *)
Definition raise {A} (e : HTTPException) : Request A :=
  λ σ, (Raise e, σ).

(** A read of the bound database. *)
Definition query {A} (q : Database → A) : Request A :=
  λ σ, (Return (q (bind σ)), σ).

Definition enqueue (c : Pending) : Request () :=
  λ σ, (Return (), mkSession (bind σ) (pending σ ++ [c])).

(** The write a flush performs for one queued change: an INSERT into
    [activities] or [participants], an INSERT into the association table
    for an append to the relationship, and the removal of the pair for a
    remove from it.  The handlers add a participant only after their query
    found none with that email, so the INSERT never meets a taken key. *)
Definition write (d : Database) (c : Pending) : Database :=
  match c with
  | Add_activity a =>
      mkDatabase (activities d ++ [a]) (participants d)
                 (activity_participants d)
  | Add_participant p =>
      mkDatabase (activities d) (participants d ++ [p])
                 (activity_participants d)
  | Append a p =>
      mkDatabase (activities d) (participants d)
                 (activity_participants d ++ [(id a, email p)])
  | Remove a p =>
      mkDatabase (activities d) (participants d)
                 (remove (id a, email p) (activity_participants d))
  end.

Definition flush (d : Database) (cs : list Pending) : Database :=
  foldl write d cs.

(** [db.commit()]: the queued changes are written, in order. *)
Definition commit : Request () :=
  λ σ, (Return (), mkSession (flush (bind σ) (pending σ)) []).

(** One request against the database [d]: the handler runs in a session
    of its own; what it has not committed is dropped with the session. *)
Definition run {A} (m : Request A) (d : Database) : Outcome A * Database :=
  let '(r, σ) := m (SessionLocal d) in (r, bind σ).

(** A [for] loop that threads a local variable. *)
Fixpoint for_each {A B} (l : list A) (body : B → A → Request B) (b : B)
  : Request B :=
  match l with
  | [] => mret b
  | x :: l' => b' ← body b x; for_each l' body b'
  end.

(** *** Queries *)

(** [db.query(Activity).first()]. *)
Definition first_activity (d : Database) : option Activity :=
  head (activities d).

(** [db.query(Activity).filter(Activity.name == activity_name).first()]. *)
Definition activity_by_name (activity_name : string) (d : Database)
  : option Activity :=
  head (filter (λ a, name a = activity_name) (activities d)).

(** [db.query(Participant).filter(Participant.email == email).first()]. *)
Definition participant_by_email (e : string) (d : Database)
  : option Participant :=
  head (filter (λ p, email p = e) (participants d)).

(** The id SQLite gives the next inserted activity: one more than the
    largest id in use.  The INSERTs of a flush follow the order of the
    [db.add] calls, so the id is computed when the object is added. *)
Definition next_id (σ : Session) : Z :=
  1 + foldr Z.max 0 (id <$> activities (flush (bind σ) (pending σ))).

(** [activity = Activity(name=..., ...); db.add(activity)]. *)
Definition add_activity (n dsc sch : string) (cap : Z) : Request Activity :=
  λ σ, let a := mkActivity (next_id σ) n dsc sch cap in
       (Return a, mkSession (bind σ) (pending σ ++ [Add_activity a])).

(** *** Sample data *)

(** The value of a key of [sample_activities]; the same shape is what
    [get_activities] returns for each activity. *)
Module Details.
Record t := mk {
  description : string;
  schedule : string;
  max_participants : Z;
  participants : list string
}.
End Details.

Definition sample_activities : list (string * Details.t) := [
  ("Chess Club",
   Details.mk "Learn strategies and compete in chess tournaments"
              "Fridays, 3:30 PM - 5:00 PM"
              12
              ["michael@mergington.edu"; "daniel@mergington.edu"]);
  ("Programming Class",
   Details.mk "Learn programming fundamentals and build software projects"
              "Tuesdays and Thursdays, 3:30 PM - 4:30 PM"
              20
              ["emma@mergington.edu"; "sophia@mergington.edu"]);
  ("Gym Class",
   Details.mk "Physical education and sports activities"
              "Mondays, Wednesdays, Fridays, 2:00 PM - 3:00 PM"
              30
              ["john@mergington.edu"; "olivia@mergington.edu"])
].

(** [init_sample_data()]. *)
Definition init_sample_data : Request () :=
  existing ← query first_activity;
  match existing with
  | Some _ => mret ()
  | None =>
      for_each sample_activities (λ _ '(name, details),
        activity ← add_activity name
                      (Details.description details)
                      (Details.schedule details)
                      (Details.max_participants details);
        for_each (Details.participants details) (λ _ email,
          found ← query (participant_by_email email);
          participant ←
            match found with
            | None =>
                let participant := mkParticipant email in
                _ ← enqueue (Add_participant participant);
                mret participant
            | Some participant => mret participant
            end;
          enqueue (Append activity participant)) ()) ();;
      commit
  end.

(** *** Handlers *)

(** [GET /activities]. *)
Definition get_activities : Request (gmap string Details.t) :=
  activities ← query activities;
  for_each activities (λ activities_dict activity,
    loaded ← query (λ d, activity_participants_of d activity);
    mret (<[name activity :=
             Details.mk (description activity)
                        (schedule activity)
                        (max_participants activity)
                        (email <$> loaded)]> activities_dict)) ∅.

(** The JSON object [{"message": ...}] of a successful request. *)
Record Message := mkMessage { message : string }.

(** [POST /activities/{activity_name}/signup]. *)
Definition signup_for_activity (activity_name email : string)
  : Request Message :=
  (* Get activity *)
  activity ← query (activity_by_name activity_name);
  match activity with
  | None => raise (mkHTTPException 404 "Activity not found")
  | Some activity =>
      (* Check if student is already signed up *)
      participant ← query (participant_by_email email);
      signed_up ←
        match participant with
        | Some p => query (λ d, bool_decide (activity ∈ participant_activities d p))
        | None => mret false
        end;
      if signed_up : bool
      then raise (mkHTTPException 400 "Student is already signed up")
      else
        (* Create participant if doesn't exist *)
        participant ←
          match participant with
          | None =>
              let participant := mkParticipant email in
              _ ← enqueue (Add_participant participant);
              mret participant
          | Some participant => mret participant
          end;
        (* Add student to activity *)
        _ ← enqueue (Append activity participant);
        _ ← commit;
        mret (mkMessage
                ("Signed up " +:+ email +:+ " for " +:+ activity_name))
  end.

(** [DELETE /activities/{activity_name}/unregister]. *)
Definition unregister_from_activity (activity_name email : string)
  : Request Message :=
  (* Get activity and participant *)
  activity ← query (activity_by_name activity_name);
  match activity with
  | None => raise (mkHTTPException 404 "Activity not found")
  | Some activity =>
      participant ← query (participant_by_email email);
      match participant with
      | None =>
          raise (mkHTTPException 400
                   "Student is not signed up for this activity")
      | Some participant =>
          loaded ← query (λ d, participant_activities d participant);
          if bool_decide (activity ∉ loaded)
          then raise (mkHTTPException 400
                        "Student is not signed up for this activity")
          else
            (* Remove student from activity *)
            _ ← enqueue (Remove activity participant);
            _ ← commit;
            mret (mkMessage
                    ("Unregistered " +:+ email +:+ " from "
                       +:+ activity_name))
      end
  end.

(** The database after start-up: the schema is created and the sample
    data is loaded. *)
Definition seeded : Database := (run init_sample_data create_all).2.

End app.

Import app.

(** * Vocabulary of the properties *)

(** The responses the handlers produce. *)
Definition not_found : HTTPException :=
  mkHTTPException 404 "Activity not found".
Definition already_signed_up : HTTPException :=
  mkHTTPException 400 "Student is already signed up".
Definition not_signed_up : HTTPException :=
  mkHTTPException 400 "Student is not signed up for this activity".
Definition signed_up (e n : string) : Message :=
  mkMessage ("Signed up " +:+ e +:+ " for " +:+ n).
Definition unregistered (e n : string) : Message :=
  mkMessage ("Unregistered " +:+ e +:+ " from " +:+ n).

(** The value stored under an activity's name. *)
Definition details_of (d : Database) (a : Activity) : Details.t :=
  Details.mk (description a) (schedule a) (max_participants a)
             (email <$> activity_participants_of d a).

(** The store a successful signup leaves behind. *)
Definition after_signup (d : Database) (a : Activity) (E : string)
  : Database :=
  mkDatabase (activities d)
             (if decide (mkParticipant E ∈ participants d)
              then participants d
              else participants d ++ [mkParticipant E])
             (activity_participants d ++ [(id a, E)]).

(** The store a successful unregister leaves behind. *)
Definition after_unregister (d : Database) (a : Activity) (E : string)
  : Database :=
  mkDatabase (activities d) (participants d)
             (remove (id a, E) (activity_participants d)).

(** Every association row points to a participant row. *)
Definition referential (d : Database) : Prop :=
  ∀ r, r ∈ activity_participants d → mkParticipant r.2 ∈ participants d.

(** The data model's constraints on a store: the primary keys [id] and
    [email] and the UNIQUE column [name] do not repeat, no pair occurs
    twice in the association table, and no row of it dangles.  The first
    three are declared in [models.py] and enforced by the database; the
    last two are kept by the handlers. *)
Record consistent (d : Database) : Prop := mkConsistent {
  ids_unique : NoDup (id <$> activities d);
  names_unique : NoDup (name <$> activities d);
  emails_unique : NoDup (participants d);
  pairs_unique : NoDup (activity_participants d);
  emails_known : referential d
}.

(** The stores the running service can be in: the seeded one, and those a
    signup or unregister request leaves behind, whatever its arguments and
    however it ends. *)
Inductive reachable : Database → Prop :=
| reachable_seeded :
    reachable seeded
| reachable_signup d A E :
    reachable d → reachable (run (signup_for_activity A E) d).2
| reachable_unregister d A E :
    reachable d → reachable (run (unregister_from_activity A E) d).2.

(** A full activity: capacity 1 and one participant already; the second
    signup is accepted. *)
Definition full_house : Database :=
  mkDatabase [mkActivity 1 "Solo" "One seat" "Daily" 1]
             [mkParticipant "a@mergington.edu"]
             [(1, "a@mergington.edu")].

(** A store with a dangling association row: the pair is in the
    association table, the participant row is not in [participants].
    SQLite accepts it, since it does not check foreign keys unless asked
    to; no request produces it. *)
Definition dangling : Database :=
  mkDatabase [mkActivity 1 "Solo" "One seat" "Daily" 1]
             []
             [(1, "a@mergington.edu")].

(** Unfolds the session monad down to the database reads and writes. *)
Ltac exec :=
  unfold run, SessionLocal, mbind, mret, Request_bind, Request_ret,
    query, raise, enqueue, commit, flush; cbn.

#[local] Arguments activity_by_name : simpl never.
#[local] Arguments participant_by_email : simpl never.
#[local] Arguments participant_activities : simpl never.
#[local] Arguments activity_participants_of : simpl never.

(** * Properties *)

(** ** Queries and relationship loads *)

Section Lookups.

Context (d : Database).

Lemma activity_by_name_Some n a :
  activity_by_name n d = Some a → a ∈ activities d ∧ name a = n.
Proof.
  unfold activity_by_name. intros H.
  apply head_Some_elem_of, list_elem_of_filter in H. tauto.
Qed.

Lemma activity_by_name_None n :
  activity_by_name n d = None ↔ n ∉ name <$> activities d.
Proof.
  unfold activity_by_name. rewrite head_None. split.
  - intros H [a [-> Ha]]%list_elem_of_fmap.
    assert (a ∈ filter (λ a', name a' = name a) (activities d)) as Hin
      by (apply list_elem_of_filter; done).
    rewrite H in Hin. by apply not_elem_of_nil in Hin.
  - intros H.
    destruct (filter (λ a, name a = n) (activities d)) as [|a l] eqn:E;
      [done|].
    assert (a ∈ filter (λ a, name a = n) (activities d)) as Hin
      by (rewrite E; left).
    apply list_elem_of_filter in Hin as [<- Hin].
    exfalso. apply H, list_elem_of_fmap. eauto.
Qed.

Lemma participant_by_email_Some e p :
  participant_by_email e d = Some p →
  p = mkParticipant e ∧ p ∈ participants d.
Proof.
  unfold participant_by_email. intros H.
  apply head_Some_elem_of, list_elem_of_filter in H as [<- H].
  by destruct p.
Qed.

Lemma participant_by_email_None e :
  participant_by_email e d = None ↔ mkParticipant e ∉ participants d.
Proof.
  unfold participant_by_email. rewrite head_None. split.
  - intros H Hin.
    assert (mkParticipant e ∈ filter (λ p, email p = e) (participants d))
      as Hin' by (apply list_elem_of_filter; done).
    rewrite H in Hin'. by apply not_elem_of_nil in Hin'.
  - intros H.
    destruct (filter (λ p, email p = e) (participants d)) as [|p l] eqn:E;
      [done|].
    assert (p ∈ filter (λ p, email p = e) (participants d)) as Hin
      by (rewrite E; left).
    apply list_elem_of_filter in Hin as [<- Hin].
    exfalso. apply H. by destruct p.
Qed.

Lemma participant_by_email_in e :
  mkParticipant e ∈ participants d →
  participant_by_email e d = Some (mkParticipant e).
Proof.
  intros Hin. destruct (participant_by_email e d) as [p|] eqn:E.
  - by apply participant_by_email_Some in E as [-> _].
  - by apply participant_by_email_None in E.
Qed.

(** [activity in participant.activities] holds exactly when the activity
    row is joined by an association row for the participant. *)
Lemma elem_of_participant_activities a p :
  a ∈ participant_activities d p ↔
  a ∈ activities d ∧ (id a, email p) ∈ activity_participants d.
Proof.
  unfold participant_activities. rewrite list_elem_of_bind. split.
  - intros [[i e] [Ha Hr]]. simpl in Ha. case_decide as He; simpl in *.
    + apply list_elem_of_filter in Ha as [<- Ha]. by subst e.
    + by apply not_elem_of_nil in Ha.
  - intros [Ha Hr]. exists (id a, email p). split; [|done]. simpl.
    rewrite decide_True by done. by apply list_elem_of_filter.
Qed.

(** [p in activity.participants], the load [get_activities] performs. *)
Lemma elem_of_activity_participants_of a p :
  p ∈ activity_participants_of d a ↔
  p ∈ participants d ∧ (id a, email p) ∈ activity_participants d.
Proof.
  unfold activity_participants_of. rewrite list_elem_of_bind. split.
  - intros [[i e] [Hp Hr]]. simpl in Hp. case_decide as Hi; simpl in *.
    + apply list_elem_of_filter in Hp as [<- Hp]. by subst i.
    + by apply not_elem_of_nil in Hp.
  - intros [Hp Hr]. exists (id a, email p). split; [|done]. simpl.
    rewrite decide_True by done. by apply list_elem_of_filter.
Qed.

End Lookups.

(** ** The paths through the handlers *)

Section Paths.

Context (d : Database) (n e : string).

Lemma signup_not_found :
  activity_by_name n d = None →
  run (signup_for_activity n e) d = (Raise not_found, d).
Proof. intros H. unfold signup_for_activity. exec. by rewrite H. Qed.

Lemma signup_conflict a :
  activity_by_name n d = Some a →
  mkParticipant e ∈ participants d →
  (id a, e) ∈ activity_participants d →
  run (signup_for_activity n e) d = (Raise already_signed_up, d).
Proof.
  intros Ha Hp Hr. unfold signup_for_activity. exec. rewrite Ha; cbn.
  rewrite (participant_by_email_in _ _ Hp); cbn.
  rewrite bool_decide_eq_true_2; [done|].
  apply elem_of_participant_activities. split; [|done].
  by apply activity_by_name_Some in Ha as [? _].
Qed.

Lemma signup_new_participant a :
  activity_by_name n d = Some a →
  mkParticipant e ∉ participants d →
  run (signup_for_activity n e) d =
    (Return (signed_up e n),
     mkDatabase (activities d)
                (participants d ++ [mkParticipant e])
                (activity_participants d ++ [(id a, e)])).
Proof.
  intros Ha Hp. unfold signup_for_activity. exec. rewrite Ha; cbn.
  apply participant_by_email_None in Hp. by rewrite Hp; cbn.
Qed.

Lemma signup_known_participant a :
  activity_by_name n d = Some a →
  mkParticipant e ∈ participants d →
  (id a, e) ∉ activity_participants d →
  run (signup_for_activity n e) d =
    (Return (signed_up e n),
     mkDatabase (activities d)
                (participants d)
                (activity_participants d ++ [(id a, e)])).
Proof.
  intros Ha Hp Hr. unfold signup_for_activity. exec. rewrite Ha; cbn.
  rewrite (participant_by_email_in _ _ Hp); cbn.
  rewrite bool_decide_eq_false_2; [done|].
  rewrite elem_of_participant_activities. simpl. tauto.
Qed.

Lemma unregister_not_found :
  activity_by_name n d = None →
  run (unregister_from_activity n e) d = (Raise not_found, d).
Proof. intros H. unfold unregister_from_activity. exec. by rewrite H. Qed.

Lemma unregister_no_participant a :
  activity_by_name n d = Some a →
  mkParticipant e ∉ participants d →
  run (unregister_from_activity n e) d = (Raise not_signed_up, d).
Proof.
  intros Ha Hp. unfold unregister_from_activity. exec. rewrite Ha; cbn.
  apply participant_by_email_None in Hp. by rewrite Hp; cbn.
Qed.

Lemma unregister_no_association a :
  activity_by_name n d = Some a →
  mkParticipant e ∈ participants d →
  (id a, e) ∉ activity_participants d →
  run (unregister_from_activity n e) d = (Raise not_signed_up, d).
Proof.
  intros Ha Hp Hr. unfold unregister_from_activity. exec. rewrite Ha; cbn.
  rewrite (participant_by_email_in _ _ Hp); cbn.
  rewrite bool_decide_eq_true_2; [done|].
  rewrite elem_of_participant_activities. simpl. tauto.
Qed.

Lemma unregister_enrolled a :
  activity_by_name n d = Some a →
  mkParticipant e ∈ participants d →
  (id a, e) ∈ activity_participants d →
  run (unregister_from_activity n e) d =
    (Return (unregistered e n),
     mkDatabase (activities d)
                (participants d)
                (remove (id a, e) (activity_participants d))).
Proof.
  intros Ha Hp Hr. unfold unregister_from_activity. exec. rewrite Ha; cbn.
  rewrite (participant_by_email_in _ _ Hp); cbn.
  rewrite bool_decide_eq_false_2; [done|].
  intros Hn. apply Hn, elem_of_participant_activities. split; [|done].
  by apply activity_by_name_Some in Ha as [? _].
Qed.

End Paths.

(** ** [list.remove] on association rows *)

Section Remove.

Implicit Types (x y : Association) (l : list Association).

Lemma remove_app_fresh x l : x ∉ l → remove x (l ++ [x]) = l.
Proof.
  induction l as [|y l IH]; intros Hx; simpl.
  - by rewrite decide_True.
  - apply not_elem_of_cons in Hx as [Hne Hx].
    rewrite decide_False by done. by rewrite IH.
Qed.

Lemma elem_of_remove_ne x y l : y ≠ x → y ∈ remove x l ↔ y ∈ l.
Proof.
  intros Hne. induction l as [|z l IH]; simpl; [done|].
  case_decide as Hz.
  - subst z. rewrite elem_of_cons. split; [by right|]. by intros [?|?].
  - rewrite !elem_of_cons, IH. done.
Qed.

Lemma elem_of_remove x y l : y ∈ remove x l → y ∈ l.
Proof.
  induction l as [|z l IH]; simpl; [done|].
  case_decide; rewrite !elem_of_cons; [by right|].
  intros [?|?]; [by left|]. right. by apply IH.
Qed.

Lemma remove_NoDup x l : NoDup l → NoDup (remove x l) ∧ x ∉ remove x l.
Proof.
  induction 1 as [|z l Hz Hl [IH1 IH2]]; simpl.
  - split; [constructor | apply not_elem_of_nil].
  - case_decide as Hzx.
    + subst z. done.
    + split.
      * constructor; [|done]. intros Hin. by apply Hz, (elem_of_remove x).
      * rewrite not_elem_of_cons. done.
Qed.

Lemma filter_remove (P : Association → Prop) `{!∀ r, Decision (P r)} x l :
  ¬ P x → filter P (remove x l) = filter P l.
Proof.
  intros Hx. induction l as [|z l IH]; simpl; [done|].
  case_decide as Hz.
  - subst z. by rewrite filter_cons_False.
  - rewrite !filter_cons, IH. done.
Qed.

Lemma bind_remove {B} (f : Association → list B) x l :
  f x = [] → remove x l ≫= f = l ≫= f.
Proof.
  intros Hx. induction l as [|y l IH]; simpl; [done|].
  case_decide as Hy.
  - subst y. by rewrite Hx.
  - by rewrite bind_cons, IH.
Qed.

End Remove.

(** ** The dictionary built by [get_activities] *)

Section GetActivities.

Lemma for_each_reads {A B} (f : Database → B → A → B)
      (body : B → A → Request B) (l : list A) :
  (∀ b x σ, body b x σ = (Return (f (bind σ) b x), σ)) →
  ∀ b σ, for_each l body b σ = (Return (foldl (f (bind σ)) b l), σ).
Proof.
  intros Hbody. induction l as [|x l IH]; intros b σ; simpl; [done|].
  unfold mbind, Request_bind. by rewrite Hbody, IH.
Qed.

Lemma get_activities_run d :
  run get_activities d =
    (Return (foldl (λ m a, <[name a := details_of d a]> m) ∅
                   (activities d)), d).
Proof.
  unfold get_activities, run, SessionLocal.
  unfold mbind at 1. unfold Request_bind, query. cbn.
  rewrite (for_each_reads
             (λ d' m a, <[name a := details_of d' a]> m)); done.
Qed.

Context (g : Activity → Details.t).

Lemma foldl_insert_fresh (l : list Activity) (m : gmap string Details.t) n :
  n ∉ name <$> l →
  foldl (λ m a, <[name a := g a]> m) m l !! n = m !! n.
Proof.
  revert m. induction l as [|b l IH]; intros m Hn; simpl; [done|].
  rewrite fmap_cons in Hn. apply not_elem_of_cons in Hn as [Hne Hn].
  rewrite IH by done. by rewrite lookup_insert_ne.
Qed.

Lemma foldl_insert_lookup (l : list Activity) (m : gmap string Details.t) a :
  NoDup (name <$> l) → a ∈ l →
  foldl (λ m a, <[name a := g a]> m) m l !! name a = Some (g a).
Proof.
  revert m. induction l as [|b l IH]; intros m Hnd Ha; simpl.
  - by apply not_elem_of_nil in Ha.
  - rewrite fmap_cons in Hnd. apply NoDup_cons in Hnd as [Hb Hnd].
    apply elem_of_cons in Ha as [->|Ha].
    + rewrite foldl_insert_fresh by done. apply lookup_insert_eq.
    + by apply IH.
Qed.

End GetActivities.

(** ** What a successful signup leaves behind *)

Section SignupFresh.

Context (d : Database) (A E : string) (a : Activity).
Hypothesis Ha : activity_by_name A d = Some a.
Hypothesis Hr : (id a, E) ∉ activity_participants d.

Lemma signup_fresh :
  run (signup_for_activity A E) d
    = (Return (signed_up E A), after_signup d a E).
Proof.
  unfold after_signup. case_decide as Hp.
  - by apply signup_known_participant.
  - by apply signup_new_participant.
Qed.

Lemma after_signup_participant :
  mkParticipant E ∈ participants (after_signup d a E).
Proof.
  simpl. case_decide; [done|].
  apply elem_of_app. right. by apply list_elem_of_singleton.
Qed.

Lemma after_signup_association :
  (id a, E) ∈ activity_participants (after_signup d a E).
Proof. simpl. apply elem_of_app. right. by apply list_elem_of_singleton. Qed.

Lemma after_signup_activity :
  activity_by_name A (after_signup d a E) = Some a.
Proof. exact Ha. Qed.

(** What [activity.participants] loads after the signup: the rows it
    loaded before, then the participant rows of the new email. *)
Lemma after_signup_loaded :
  activity_participants_of (after_signup d a E) a =
    activity_participants_of d a ++
    filter (λ p, email p = E) (participants (after_signup d a E)).
Proof.
  unfold activity_participants_of at 1 2, after_signup.
  cbn [activity_participants participants].
  rewrite bind_app, bind_singleton. cbn [fst snd].
  rewrite (decide_True (P := id a = id a)) by done. f_equal.
  apply Forall_bind_ext, Forall_forall. intros [i e] Hin. cbn [fst snd].
  case_decide as Hi; [|done]. simpl. case_decide; [done|].
  rewrite filter_app, filter_cons_False, filter_nil, app_nil_r; [done|].
  simpl. intros <-. by subst i.
Qed.

End SignupFresh.

(** ** What a successful unregister leaves behind *)

Section Unregistered.

Context (d : Database) (A E : string) (a : Activity).
Hypothesis Ha : activity_by_name A d = Some a.
Hypothesis Hp : mkParticipant E ∈ participants d.
Hypothesis Hr : (id a, E) ∈ activity_participants d.

Lemma unregister_signed_up :
  run (unregister_from_activity A E) d
    = (Return (unregistered E A), after_unregister d a E).
Proof. by apply unregister_enrolled. Qed.

Lemma after_unregister_gone :
  NoDup (activity_participants d) →
  (id a, E) ∉ activity_participants (after_unregister d a E).
Proof. intros Hnd. simpl. by apply remove_NoDup. Qed.

End Unregistered.

(** ** The relationship loads of the rows a request does not name *)

Section Frame.

Context (d : Database) (a : Activity) (E : string).

Lemma after_signup_other_participant p :
  email p ≠ E →
  participant_activities (after_signup d a E) p = participant_activities d p.
Proof.
  intros Hne. unfold participant_activities, after_signup.
  cbn [activity_participants activities].
  rewrite bind_app, bind_singleton. cbn [fst snd].
  rewrite decide_False by done. apply app_nil_r.
Qed.

Lemma after_signup_other_activity b :
  referential d → id b ≠ id a →
  activity_participants_of (after_signup d a E) b
  = activity_participants_of d b.
Proof.
  intros Hfk Hne. unfold activity_participants_of, after_signup.
  cbn [activity_participants participants].
  rewrite bind_app, bind_singleton. cbn [fst snd].
  rewrite (decide_False (P := id a = id b)) by done. rewrite app_nil_r.
  apply Forall_bind_ext, Forall_forall. intros [i e] Hin. cbn [fst snd].
  case_decide as Hi; [|done]. case_decide as Hp; [done|].
  rewrite filter_app, filter_cons_False, filter_nil, app_nil_r; [done|].
  simpl. intros <-. by apply Hp, (Hfk (i, E)).
Qed.

Lemma after_unregister_other_participant p :
  email p ≠ E →
  participant_activities (after_unregister d a E) p
  = participant_activities d p.
Proof.
  intros Hne. unfold participant_activities, after_unregister.
  cbn [activity_participants activities].
  apply bind_remove. cbn [fst snd]. by rewrite decide_False.
Qed.

Lemma after_unregister_other_activity b :
  id b ≠ id a →
  activity_participants_of (after_unregister d a E) b
  = activity_participants_of d b.
Proof.
  intros Hne. unfold activity_participants_of, after_unregister.
  cbn [activity_participants participants].
  apply bind_remove. cbn [fst snd]. by rewrite decide_False.
Qed.

End Frame.

(** ** Every way a request can end *)

Section Cases.

Context (d : Database) (A E : string).

Lemma signup_cases :
  (activity_by_name A d = None
   ∧ run (signup_for_activity A E) d = (Raise not_found, d))
  ∨ (∃ a, activity_by_name A d = Some a
        ∧ mkParticipant E ∈ participants d
        ∧ (id a, E) ∈ activity_participants d
        ∧ run (signup_for_activity A E) d = (Raise already_signed_up, d))
  ∨ (∃ a, activity_by_name A d = Some a
        ∧ ¬ (mkParticipant E ∈ participants d
             ∧ (id a, E) ∈ activity_participants d)
        ∧ run (signup_for_activity A E) d
          = (Return (signed_up E A), after_signup d a E)).
Proof.
  destruct (activity_by_name A d) as [a|] eqn:Ha.
  - right.
    destruct (decide (mkParticipant E ∈ participants d)) as [Hp|Hp];
      [destruct (decide ((id a, E) ∈ activity_participants d)) as [Hr|Hr]|].
    + left. exists a. by rewrite (signup_conflict d A E a).
    + right. exists a. split; [done|]. split; [tauto|].
      by apply signup_fresh.
    + right. exists a. split; [done|]. split; [tauto|].
      unfold after_signup. rewrite decide_False by done.
      by apply signup_new_participant.
  - left. by rewrite signup_not_found.
Qed.

Lemma unregister_cases :
  (activity_by_name A d = None
   ∧ run (unregister_from_activity A E) d = (Raise not_found, d))
  ∨ (∃ a, activity_by_name A d = Some a
        ∧ (mkParticipant E ∉ participants d
           ∨ (id a, E) ∉ activity_participants d)
        ∧ run (unregister_from_activity A E) d = (Raise not_signed_up, d))
  ∨ (∃ a, activity_by_name A d = Some a
        ∧ mkParticipant E ∈ participants d
        ∧ (id a, E) ∈ activity_participants d
        ∧ run (unregister_from_activity A E) d
          = (Return (unregistered E A), after_unregister d a E)).
Proof.
  destruct (activity_by_name A d) as [a|] eqn:Ha.
  - right.
    destruct (decide (mkParticipant E ∈ participants d)) as [Hp|Hp];
      [destruct (decide ((id a, E) ∈ activity_participants d)) as [Hr|Hr]|].
    + right. exists a. by rewrite (unregister_signed_up d A E a).
    + left. exists a. split; [done|]. split; [by right|].
      by apply unregister_no_association with a.
    + left. exists a. split; [done|]. split; [by left|].
      by apply unregister_no_participant with a.
  - left. by rewrite unregister_not_found.
Qed.

End Cases.

(** ** Consistency of the store *)

Lemma consistent_seeded : consistent seeded.
Proof.
  split.
  - apply (bool_decide_unpack _). vm_compute. exact I.
  - apply (bool_decide_unpack _). vm_compute. exact I.
  - apply (bool_decide_unpack _). vm_compute. exact I.
  - apply (bool_decide_unpack _). vm_compute. exact I.
  - assert (Forall (λ r : Association,
                      mkParticipant r.2 ∈ participants seeded)
                   (activity_participants seeded)) as Hall
      by (apply (bool_decide_unpack _); vm_compute; exact I).
    intros r Hr. by apply (proj1 (Forall_forall _ _) Hall).
Qed.

Lemma consistent_signup d A E :
  consistent d → consistent (run (signup_for_activity A E) d).2.
Proof.
  intros [Hids Hnames Hemails Hnd Hfk].
  destruct (signup_cases d A E)
    as [[_ ->]|[(a & _ & _ & _ & ->)|(a & Ha & Hfresh & ->)]];
    [done|done|].
  assert ((id a, E) ∉ activity_participants d) as Hr.
  { intros Hr. apply Hfresh. split; [|done]. by apply (Hfk (id a, E)). }
  split; simpl; [done|done| | |].
  - case_decide as Hp; [done|].
    apply NoDup_app. split; [done|]. split; [|apply NoDup_singleton].
    intros p Hin Hlast. apply list_elem_of_singleton in Hlast as ->. done.
  - apply NoDup_app. split; [done|]. split; [|apply NoDup_singleton].
    intros r Hin Hlast. apply list_elem_of_singleton in Hlast as ->. done.
  - intros r Hin. apply elem_of_app in Hin as [Hin|Hlast];
      [|apply list_elem_of_singleton in Hlast as ->].
    + apply Hfk in Hin. unfold after_signup. simpl. case_decide; [done|].
      apply elem_of_app. by left.
    + by apply after_signup_participant.
Qed.

Lemma consistent_unregister d A E :
  consistent d → consistent (run (unregister_from_activity A E) d).2.
Proof.
  intros [Hids Hnames Hemails Hnd Hfk].
  destruct (unregister_cases d A E)
    as [[_ ->]|[(a & _ & _ & ->)|(a & _ & _ & _ & ->)]];
    [done|done|].
  split; simpl; [done|done|done| |].
  - by apply remove_NoDup.
  - intros r Hin%elem_of_remove. by apply Hfk.
Qed.

Lemma reachable_consistent d : reachable d → consistent d.
Proof.
  induction 1 as [|d A E _ IH|d A E _ IH].
  - apply consistent_seeded.
  - by apply consistent_signup.
  - by apply consistent_unregister.
Qed.

(** * The specified behaviour *)

(** ** Signup *)

(** C1.  When the lookup of the name [A] finds an activity and the email
    [E] has no association row for it, [POST /activities/A/signup?email=E]
    returns the message "Signed up E for A", leaves a Participant row for
    [E] in the store (appending one only when none was there), appends the
    association row, and a following [GET /activities] lists [E] among the
    participants under the key [A].  The names of the activity rows are
    distinct, as the UNIQUE constraint of the column requires; the
    dictionary of [get_activities] is keyed by name. *)
Theorem signup_succeeds (d : Database) (A E : string) (a : Activity) :
  activity_by_name A d = Some a →
  (id a, E) ∉ activity_participants d →
  NoDup (name <$> activities d) →
  ∃ d' listing details,
    run (signup_for_activity A E) d
      = (Return (mkMessage ("Signed up " +:+ E +:+ " for " +:+ A)), d')
    ∧ activities d' = activities d
    ∧ participants d' =
        (if decide (mkParticipant E ∈ participants d)
         then participants d
         else participants d ++ [mkParticipant E])
    ∧ mkParticipant E ∈ participants d'
    ∧ activity_participants d' = activity_participants d ++ [(id a, E)]
    ∧ run get_activities d' = (Return listing, d')
    ∧ listing !! A = Some details
    ∧ E ∈ Details.participants details.
Proof.
  intros Ha Hr Hnd.
  destruct (activity_by_name_Some _ _ _ Ha) as [Hin Hname].
  pose proof (after_signup_participant d E a) as Hp'.
  set (d' := after_signup d a E) in *.
  exists d', (foldl (λ m b, <[name b := details_of d' b]> m) ∅ (activities d')),
    (details_of d' a).
  split; [by apply signup_fresh|].
  split; [done|]. split; [done|]. split; [done|]. split; [done|].
  split; [apply get_activities_run|]. split.
  - rewrite <- Hname. by apply foldl_insert_lookup.
  - simpl. apply list_elem_of_fmap. exists (mkParticipant E). split; [done|].
    apply elem_of_activity_participants_of. split; [done|].
    apply after_signup_association.
Qed.

(** The scenario of the sample data: a new email signs up for
    "Chess Club". *)
Lemma signup_succeeds_witness :
  ∃ d' listing details,
    run (signup_for_activity "Chess Club" "new@mergington.edu") seeded
      = (Return (mkMessage "Signed up new@mergington.edu for Chess Club"), d')
    ∧ activities d' = activities seeded
    ∧ participants d' =
        (if decide (mkParticipant "new@mergington.edu" ∈ participants seeded)
         then participants seeded
         else participants seeded ++ [mkParticipant "new@mergington.edu"])
    ∧ mkParticipant "new@mergington.edu" ∈ participants d'
    ∧ activity_participants d' =
        activity_participants seeded ++ [(1, "new@mergington.edu")]
    ∧ run get_activities d' = (Return listing, d')
    ∧ listing !! "Chess Club" = Some details
    ∧ "new@mergington.edu" ∈ Details.participants details.
Proof.
  apply (signup_succeeds seeded "Chess Club" "new@mergington.edu"
           (mkActivity 1 "Chess Club"
              "Learn strategies and compete in chess tournaments"
              "Fridays, 3:30 PM - 5:00 PM" 12)).
  - reflexivity.
  - apply (bool_decide_unpack _). vm_compute. exact I.
  - apply (bool_decide_unpack _). vm_compute. exact I.
Defined.

(** C2.  A signup for a participant who exists and already has an
    association row for the activity raises 400 with the detail "Student is
    already signed up"; and starting where the email has no association
    row for the activity, the first of two identical signups returns and
    the second raises that error. *)
Theorem signup_twice_already_signed_up
    (d : Database) (A E : string) (a : Activity) :
  activity_by_name A d = Some a →
  (mkParticipant E ∈ participants d →
   (id a, E) ∈ activity_participants d →
   run (signup_for_activity A E) d =
     (Raise (mkHTTPException 400 "Student is already signed up"), d))
  ∧
  ((id a, E) ∉ activity_participants d →
   ∃ d1,
     run (signup_for_activity A E) d
       = (Return (mkMessage ("Signed up " +:+ E +:+ " for " +:+ A)), d1)
     ∧ run (signup_for_activity A E) d1
       = (Raise (mkHTTPException 400 "Student is already signed up"), d1)).
Proof.
  intros Ha. split.
  - intros Hp Hr. by apply signup_conflict with a.
  - intros Hr. exists (after_signup d a E). split.
    + by apply signup_fresh.
    + apply signup_conflict with a.
      * by apply after_signup_activity.
      * apply after_signup_participant.
      * apply after_signup_association.
Qed.

Lemma signup_twice_already_signed_up_witness :
  run (signup_for_activity "Chess Club" "michael@mergington.edu") seeded =
    (Raise (mkHTTPException 400 "Student is already signed up"), seeded)
  ∧
  ∃ d1,
    run (signup_for_activity "Chess Club" "new@mergington.edu") seeded
      = (Return (mkMessage "Signed up new@mergington.edu for Chess Club"), d1)
    ∧ run (signup_for_activity "Chess Club" "new@mergington.edu") d1
      = (Raise (mkHTTPException 400 "Student is already signed up"), d1).
Proof.
  pose (chess := mkActivity 1 "Chess Club"
                   "Learn strategies and compete in chess tournaments"
                   "Fridays, 3:30 PM - 5:00 PM" 12).
  split.
  - apply (signup_twice_already_signed_up seeded "Chess Club"
             "michael@mergington.edu" chess).
    + reflexivity.
    + apply (bool_decide_unpack _). vm_compute. exact I.
    + apply (bool_decide_unpack _). vm_compute. exact I.
  - apply (signup_twice_already_signed_up seeded "Chess Club"
             "new@mergington.edu" chess).
    + reflexivity.
    + apply (bool_decide_unpack _). vm_compute. exact I.
Defined.

(** C3.  When no activity row carries the name [N], signup and unregister
    both raise 404, whatever the email and whether or not a participant
    row or association rows exist for it. *)
Theorem unknown_activity_not_found (d : Database) (N E : string) :
  N ∉ name <$> activities d →
  run (signup_for_activity N E) d =
    (Raise (mkHTTPException 404 "Activity not found"), d)
  ∧ run (unregister_from_activity N E) d =
    (Raise (mkHTTPException 404 "Activity not found"), d).
Proof.
  intros HN%activity_by_name_None. split.
  - by apply signup_not_found.
  - by apply unregister_not_found.
Qed.

Lemma unknown_activity_not_found_witness :
  run (signup_for_activity "Debate Team" "michael@mergington.edu") seeded =
    (Raise (mkHTTPException 404 "Activity not found"), seeded)
  ∧ run (unregister_from_activity "Debate Team" "michael@mergington.edu")
        seeded =
    (Raise (mkHTTPException 404 "Activity not found"), seeded).
Proof.
  apply (unknown_activity_not_found seeded "Debate Team"
           "michael@mergington.edu").
  apply (bool_decide_unpack _). vm_compute. exact I.
Defined.

(** ** Unregister *)

(** C4.  With the activity [A] found, unregister raises 400 with the
    detail "Student is not signed up for this activity" exactly when there
    is no participant row for [E] or no association row for the pair.
    After an unregister that returned, the same unregister raises that
    error; here each pair occurs at most once in the association
    table. *)
Theorem unregister_not_signed_up_iff
    (d : Database) (A E : string) (a : Activity) :
  activity_by_name A d = Some a →
  ((run (unregister_from_activity A E) d).1 =
     Raise (mkHTTPException 400 "Student is not signed up for this activity")
   ↔ mkParticipant E ∉ participants d
     ∨ (id a, E) ∉ activity_participants d)
  ∧
  (NoDup (activity_participants d) →
   ∀ m d1,
     run (unregister_from_activity A E) d = (Return m, d1) →
     run (unregister_from_activity A E) d1 =
       (Raise
          (mkHTTPException 400 "Student is not signed up for this activity"),
        d1)).
Proof.
  intros Ha.
  destruct (decide (mkParticipant E ∈ participants d)) as [Hp|Hp];
    [destruct (decide ((id a, E) ∈ activity_participants d)) as [Hr|Hr]|].
  - rewrite (unregister_signed_up d A E a) by done. split.
    + simpl. split; [done|]. intros [?|?]; done.
    + intros Hnd m d1 [= <- <-].
      apply unregister_no_association with a; [done|done|].
      by apply after_unregister_gone.
  - rewrite (unregister_no_association d A E a) by done. split.
    + simpl. split; [by right|done].
    + intros _ m d1 [=].
  - rewrite (unregister_no_participant d A E a) by done. split.
    + simpl. split; [by left|done].
    + intros _ m d1 [=].
Qed.

Lemma unregister_not_signed_up_iff_witness :
  ((run (unregister_from_activity "Chess Club" "daniel@mergington.edu")
        seeded).1 =
     Raise (mkHTTPException 400 "Student is not signed up for this activity")
   ↔ mkParticipant "daniel@mergington.edu" ∉ participants seeded
     ∨ (1, "daniel@mergington.edu") ∉ activity_participants seeded)
  ∧
  ∀ m d1,
    run (unregister_from_activity "Chess Club" "daniel@mergington.edu")
        seeded = (Return m, d1) →
    run (unregister_from_activity "Chess Club" "daniel@mergington.edu") d1 =
      (Raise
         (mkHTTPException 400 "Student is not signed up for this activity"),
       d1).
Proof.
  pose proof (unregister_not_signed_up_iff seeded "Chess Club"
                "daniel@mergington.edu"
                (mkActivity 1 "Chess Club"
                   "Learn strategies and compete in chess tournaments"
                   "Fridays, 3:30 PM - 5:00 PM" 12) eq_refl) as [H1 H2].
  split; [exact H1|]. apply H2.
  apply (bool_decide_unpack _). vm_compute. exact I.
Defined.

(** C5.  With the activity [A] found, a participant row for [E] and the
    association row of the pair present (once, as everywhere in the
    association table), unregister returns and removes that row and
    nothing else: the pair is gone, every other row is kept, the
    participants and activities tables are as before, so the rows of [E]
    and [A] are still there, and [GET /activities] no longer lists [E]
    under [A].  The activity names are distinct, as their UNIQUE
    constraint requires. *)
Theorem unregister_removes_only_association
    (d : Database) (A E : string) (a : Activity) :
  activity_by_name A d = Some a →
  mkParticipant E ∈ participants d →
  (id a, E) ∈ activity_participants d →
  NoDup (activity_participants d) →
  NoDup (name <$> activities d) →
  ∃ d' listing details,
    run (unregister_from_activity A E) d
      = (Return (mkMessage ("Unregistered " +:+ E +:+ " from " +:+ A)), d')
    ∧ ((id a, E) ∉ activity_participants d')
    ∧ (∀ r, r ≠ (id a, E) →
         r ∈ activity_participants d' ↔ r ∈ activity_participants d)
    ∧ participants d' = participants d
    ∧ mkParticipant E ∈ participants d'
    ∧ activities d' = activities d
    ∧ a ∈ activities d'
    ∧ run get_activities d' = (Return listing, d')
    ∧ listing !! A = Some details
    ∧ E ∉ Details.participants details.
Proof.
  intros Ha Hp Hr Hnd Hnames.
  destruct (activity_by_name_Some _ _ _ Ha) as [Hin Hname].
  set (d' := after_unregister d a E).
  assert ((id a, E) ∉ activity_participants d') as Hgone
    by by apply after_unregister_gone.
  exists d', (foldl (λ m b, <[name b := details_of d' b]> m) ∅ (activities d')),
    (details_of d' a).
  split; [by apply unregister_signed_up|]. split; [done|].
  split; [intros r Hne; by apply elem_of_remove_ne|].
  split; [done|]. split; [done|]. split; [done|]. split; [done|].
  split; [apply get_activities_run|]. split.
  - rewrite <- Hname. by apply foldl_insert_lookup.
  - simpl. intros [p [-> Hload]]%list_elem_of_fmap.
    apply elem_of_activity_participants_of in Hload as [_ Hload]. done.
Qed.

Lemma unregister_removes_only_association_witness :
  ∃ d' listing details,
    run (unregister_from_activity "Chess Club" "michael@mergington.edu")
        seeded
      = (Return
           (mkMessage "Unregistered michael@mergington.edu from Chess Club"),
         d')
    ∧ ((1, "michael@mergington.edu") ∉ activity_participants d')
    ∧ (∀ r, r ≠ (1, "michael@mergington.edu") →
         r ∈ activity_participants d' ↔ r ∈ activity_participants seeded)
    ∧ participants d' = participants seeded
    ∧ mkParticipant "michael@mergington.edu" ∈ participants d'
    ∧ activities d' = activities seeded
    ∧ mkActivity 1 "Chess Club"
        "Learn strategies and compete in chess tournaments"
        "Fridays, 3:30 PM - 5:00 PM" 12 ∈ activities d'
    ∧ run get_activities d' = (Return listing, d')
    ∧ listing !! "Chess Club" = Some details
    ∧ "michael@mergington.edu" ∉ Details.participants details.
Proof.
  apply (unregister_removes_only_association seeded "Chess Club"
           "michael@mergington.edu"
           (mkActivity 1 "Chess Club"
              "Learn strategies and compete in chess tournaments"
              "Fridays, 3:30 PM - 5:00 PM" 12)).
  - reflexivity.
  - apply (bool_decide_unpack _). vm_compute. exact I.
  - apply (bool_decide_unpack _). vm_compute. exact I.
  - apply (bool_decide_unpack _). vm_compute. exact I.
  - apply (bool_decide_unpack _). vm_compute. exact I.
Defined.

(** ** Sequences of requests *)

(** C6.  From a store where the activity [A] is found and [E] has no
    association row for it, signup, unregister and signup again all
    return in this order; the unregister takes the association away and
    the last signup puts it back, so [E] is associated to [A] at the
    end. *)
Theorem signup_unregister_signup
    (d : Database) (A E : string) (a : Activity) :
  activity_by_name A d = Some a →
  (id a, E) ∉ activity_participants d →
  ∃ d1 d2 d3,
    run (signup_for_activity A E) d
      = (Return (mkMessage ("Signed up " +:+ E +:+ " for " +:+ A)), d1)
    ∧ run (unregister_from_activity A E) d1
      = (Return (mkMessage ("Unregistered " +:+ E +:+ " from " +:+ A)), d2)
    ∧ run (signup_for_activity A E) d2
      = (Return (mkMessage ("Signed up " +:+ E +:+ " for " +:+ A)), d3)
    ∧ ((id a, E) ∉ activity_participants d2)
    ∧ (id a, E) ∈ activity_participants d3
    ∧ mkParticipant E ∈ activity_participants_of d3 a.
Proof.
  intros Ha Hr.
  set (d1 := after_signup d a E).
  set (d2 := after_unregister d1 a E).
  assert (activity_participants d2 = activity_participants d) as Hd2
    by (simpl; by apply remove_app_fresh).
  assert (activity_by_name A d2 = Some a) as Ha2 by exact Ha.
  assert ((id a, E) ∉ activity_participants d2) as Hr2 by by rewrite Hd2.
  exists d1, d2, (after_signup d2 a E).
  split; [by apply signup_fresh|]. split.
  { apply unregister_enrolled.
    - by apply after_signup_activity.
    - apply after_signup_participant.
    - apply after_signup_association. }
  split; [by apply signup_fresh|]. split; [done|].
  split; [apply after_signup_association|].
  apply elem_of_activity_participants_of. split.
  - apply after_signup_participant.
  - apply after_signup_association.
Qed.

Lemma signup_unregister_signup_witness :
  ∃ d1 d2 d3,
    run (signup_for_activity "Gym Class" "emma@mergington.edu") seeded
      = (Return (mkMessage "Signed up emma@mergington.edu for Gym Class"), d1)
    ∧ run (unregister_from_activity "Gym Class" "emma@mergington.edu") d1
      = (Return
           (mkMessage "Unregistered emma@mergington.edu from Gym Class"), d2)
    ∧ run (signup_for_activity "Gym Class" "emma@mergington.edu") d2
      = (Return (mkMessage "Signed up emma@mergington.edu for Gym Class"), d3)
    ∧ ((3, "emma@mergington.edu") ∉ activity_participants d2)
    ∧ (3, "emma@mergington.edu") ∈ activity_participants d3
    ∧ mkParticipant "emma@mergington.edu" ∈
        activity_participants_of d3
          (mkActivity 3 "Gym Class"
             "Physical education and sports activities"
             "Mondays, Wednesdays, Fridays, 2:00 PM - 3:00 PM" 30).
Proof.
  apply (signup_unregister_signup seeded "Gym Class" "emma@mergington.edu"
           (mkActivity 3 "Gym Class"
              "Physical education and sports activities"
              "Mondays, Wednesdays, Fridays, 2:00 PM - 3:00 PM" 30)).
  - reflexivity.
  - apply (bool_decide_unpack _). vm_compute. exact I.
Defined.

(** C7.  Signup does not look at [max_participants]: with the activity
    found and no association row for the email, the request returns
    whatever the capacity is, and [activity.participants] loads more rows
    after it than before; so an activity whose participant count had
    reached or passed its capacity ends strictly above it. *)
Theorem signup_ignores_capacity
    (d : Database) (A E : string) (a : Activity) :
  activity_by_name A d = Some a →
  (id a, E) ∉ activity_participants d →
  ∃ d',
    run (signup_for_activity A E) d
      = (Return (mkMessage ("Signed up " +:+ E +:+ " for " +:+ A)), d')
    ∧ Nat.lt (length (activity_participants_of d a))
             (length (activity_participants_of d' a))
    ∧ (max_participants a ≤ Z.of_nat (length (activity_participants_of d a)) →
       max_participants a < Z.of_nat (length (activity_participants_of d' a))).
Proof.
  intros Ha Hr. exists (after_signup d a E).
  assert (length (activity_participants_of d a)
          < length (activity_participants_of (after_signup d a E) a))%nat
    as Hlen.
  { rewrite after_signup_loaded by done. rewrite length_app.
    pose proof (after_signup_participant d E a) as Hp.
    assert (mkParticipant E ∈
              filter (λ p, email p = E) (participants (after_signup d a E)))
      as Hin by (by apply list_elem_of_filter).
    destruct (filter _ (participants (after_signup d a E)));
      [by apply not_elem_of_nil in Hin | simpl; lia]. }
  split; [by apply signup_fresh|]. split; [exact Hlen|]. lia.
Qed.

Lemma signup_ignores_capacity_witness :
  ∃ d',
    run (signup_for_activity "Solo" "b@mergington.edu") full_house
      = (Return (mkMessage "Signed up b@mergington.edu for Solo"), d')
    ∧ Nat.lt (length (activity_participants_of full_house
                        (mkActivity 1 "Solo" "One seat" "Daily" 1)))
             (length (activity_participants_of d'
                        (mkActivity 1 "Solo" "One seat" "Daily" 1)))
    ∧ (1 ≤ Z.of_nat (length (activity_participants_of full_house
                               (mkActivity 1 "Solo" "One seat" "Daily" 1))) →
       1 < Z.of_nat (length (activity_participants_of d'
                               (mkActivity 1 "Solo" "One seat" "Daily" 1)))).
Proof.
  apply (signup_ignores_capacity full_house "Solo" "b@mergington.edu"
           (mkActivity 1 "Solo" "One seat" "Daily" 1)).
  - reflexivity.
  - apply (bool_decide_unpack _). vm_compute. exact I.
Defined.

(** C8.  In every store reachable from the seeded one through signup and
    unregister requests, the association table holds each (activity id,
    email) pair at most once. *)
Theorem association_pairs_unique (d : Database) :
  reachable d → NoDup (activity_participants d).
Proof. intros Hd. by apply reachable_consistent. Qed.

Lemma association_pairs_unique_witness :
  NoDup (activity_participants
           (run (unregister_from_activity "Gym Class" "john@mergington.edu")
              (run (signup_for_activity "Chess Club" "john@mergington.edu")
                 seeded).2).2).
Proof.
  apply association_pairs_unique.
  apply reachable_unregister, reachable_signup, reachable_seeded.
Defined.

(** ** Failing requests, and the frame of successful ones *)

(** C9.  A signup or unregister that raises does so with status 404 or
    400 and leaves the whole store (activities, participants and
    association rows) exactly as it was. *)
Theorem failed_request_keeps_store
    (d d' : Database) (A E : string) (e : HTTPException) :
  run (signup_for_activity A E) d = (Raise e, d')
  ∨ run (unregister_from_activity A E) d = (Raise e, d') →
  d' = d ∧ (status_code e = 404 ∨ status_code e = 400).
Proof.
  intros [Hrun|Hrun].
  - destruct (signup_cases d A E)
      as [[_ H]|[(a & _ & _ & _ & H)|(a & _ & _ & H)]];
      rewrite H in Hrun; [| |done]; injection Hrun as <- <-.
    + split; [done|by left].
    + split; [done|by right].
  - destruct (unregister_cases d A E)
      as [[_ H]|[(a & _ & _ & H)|(a & _ & _ & _ & H)]];
      rewrite H in Hrun; [| |done]; injection Hrun as <- <-.
    + split; [done|by left].
    + split; [done|by right].
Qed.

Lemma failed_request_keeps_store_witness :
  (seeded = seeded ∧ (404 = 404 ∨ 404 = 400))
  ∧ (seeded = seeded ∧ (400 = 404 ∨ 400 = 400)).
Proof.
  split.
  - apply (failed_request_keeps_store seeded seeded "Debate Team"
             "michael@mergington.edu"
             (mkHTTPException 404 "Activity not found")).
    left. vm_compute. reflexivity.
  - apply (failed_request_keeps_store seeded seeded "Chess Club"
             "emma@mergington.edu"
             (mkHTTPException 400
                "Student is not signed up for this activity")).
    right. vm_compute. reflexivity.
Defined.

(** C10.  A signup or unregister for [(A, E)] that returns touches only
    the association row of that pair and, for signup, possibly appends the
    participant row of [E].  The activities table is the same, so [A]
    keeps its name, description, schedule and capacity and is still what
    the name looks up; the participants table is the same or, after a
    signup, has gained the row of [E]; the association rows other than
    the pair are the same, in particular the rows of every activity with
    another id; every participant with another email loads the same
    [activities], and every activity with another id loads the same
    [participants] (after a signup this last point is stated for a store
    without dangling association rows, since a new participant row would
    otherwise be joined by them). *)
Theorem successful_request_frame
    (d d' : Database) (A E : string) (m : Message) :
  (run (signup_for_activity A E) d = (Return m, d') →
   ∃ a, activity_by_name A d = Some a
      ∧ activity_by_name A d' = Some a
      ∧ activities d' = activities d
      ∧ (participants d' = participants d
         ∨ ((mkParticipant E ∉ participants d)
            ∧ participants d' = participants d ++ [mkParticipant E]))
      ∧ filter (λ r, r ≠ (id a, E)) (activity_participants d')
        = filter (λ r, r ≠ (id a, E)) (activity_participants d)
      ∧ (∀ b, id b ≠ id a →
           filter (λ r, r.1 = id b) (activity_participants d')
           = filter (λ r, r.1 = id b) (activity_participants d))
      ∧ (∀ p, email p ≠ E →
           participant_activities d' p = participant_activities d p)
      ∧ (referential d →
         ∀ b, id b ≠ id a →
           activity_participants_of d' b = activity_participants_of d b))
  ∧
  (run (unregister_from_activity A E) d = (Return m, d') →
   ∃ a, activity_by_name A d = Some a
      ∧ activity_by_name A d' = Some a
      ∧ activities d' = activities d
      ∧ participants d' = participants d
      ∧ filter (λ r, r ≠ (id a, E)) (activity_participants d')
        = filter (λ r, r ≠ (id a, E)) (activity_participants d)
      ∧ (∀ b, id b ≠ id a →
           filter (λ r, r.1 = id b) (activity_participants d')
           = filter (λ r, r.1 = id b) (activity_participants d))
      ∧ (∀ p, email p ≠ E →
           participant_activities d' p = participant_activities d p)
      ∧ (∀ b, id b ≠ id a →
           activity_participants_of d' b = activity_participants_of d b)).
Proof.
  split; intros Hrun.
  - destruct (signup_cases d A E)
      as [[_ H]|[(a & _ & _ & _ & H)|(a & Ha & _ & H)]];
      rewrite H in Hrun; [done|done|]. injection Hrun as <- <-.
    assert (∀ (P : Association → Prop) `{!∀ r, Decision (P r)},
              ¬ P (id a, E) →
              filter P (activity_participants (after_signup d a E))
              = filter P (activity_participants d)) as Hframe.
    { intros P ? HP. simpl.
      by rewrite filter_app, filter_cons_False, filter_nil, app_nil_r. }
    exists a. split; [done|]. split; [done|]. split; [done|]. split.
    { simpl. case_decide; [by left | by right]. }
    split; [apply Hframe; by intros []|].
    split; [intros b Hb; apply Hframe; simpl; congruence|].
    split; [intros p Hp; by apply after_signup_other_participant|].
    intros Hfk b Hb. by apply after_signup_other_activity.
  - destruct (unregister_cases d A E)
      as [[_ H]|[(a & _ & _ & H)|(a & Ha & _ & _ & H)]];
      rewrite H in Hrun; [done|done|]. injection Hrun as <- <-.
    exists a. split; [done|]. split; [done|]. split; [done|].
    split; [done|].
    split; [apply filter_remove; by intros []|].
    split; [intros b Hb; apply filter_remove; simpl; congruence|].
    split; [intros p Hp; by apply after_unregister_other_participant|].
    intros b Hb. by apply after_unregister_other_activity.
Qed.

(** On the seeded store: emma joins "Chess Club" and the activities table
    is as before; daniel leaves "Chess Club" and the participants table is
    as before. *)
Lemma successful_request_frame_witness :
  (∃ a, activity_by_name "Chess Club" seeded = Some a
      ∧ activities (run (signup_for_activity "Chess Club"
                           "emma@mergington.edu") seeded).2
        = activities seeded)
  ∧ (∃ a, activity_by_name "Chess Club" seeded = Some a
        ∧ participants (run (unregister_from_activity "Chess Club"
                               "daniel@mergington.edu") seeded).2
          = participants seeded).
Proof.
  split.
  - destruct (proj1 (successful_request_frame seeded
                       (run (signup_for_activity "Chess Club"
                               "emma@mergington.edu") seeded).2
                       "Chess Club" "emma@mergington.edu"
                       (mkMessage
                          "Signed up emma@mergington.edu for Chess Club"))
                    eq_refl)
      as (a & Ha & _ & Hacts & _).
    exists a. split; [exact Ha | exact Hacts].
  - destruct (proj2 (successful_request_frame seeded
                       (run (unregister_from_activity "Chess Club"
                               "daniel@mergington.edu") seeded).2
                       "Chess Club" "daniel@mergington.edu"
                       (mkMessage
                          "Unregistered daniel@mergington.edu from Chess Club"))
                    eq_refl)
      as (a & Ha & _ & _ & Hparts & _).
    exists a. split; [exact Ha | exact Hparts].
Defined.

(** * Further properties of the handlers *)

(** ** [GET /activities] *)

Section Listing.

Context (g : Activity → Details.t).

Lemma foldl_insert_is_Some (l : list Activity) (m : gmap string Details.t) n :
  is_Some (foldl (λ m a, <[name a := g a]> m) m l !! n)
  ↔ is_Some (m !! n) ∨ n ∈ name <$> l.
Proof.
  revert m. induction l as [|b l IH]; intros m; simpl.
  - rewrite elem_of_nil. tauto.
  - rewrite IH, ?fmap_cons, elem_of_cons.
    destruct (decide (name b = n)) as [<-|Hne].
    + rewrite lookup_insert_eq. split; [by right; left|].
      intros _. left. by eexists.
    + rewrite lookup_insert_ne by done. split.
      * intros [?|?]; [by left | by right; right].
      * intros [?|[?|?]]; [by left | by subst | by right].
Qed.

End Listing.

(** X1.  [GET /activities] writes nothing: the store after it is the store
    before it.  It always returns, and the keys of the dictionary it
    returns are exactly the names found in the activities table: a name
    with no activity row is a missing key. *)
Theorem get_activities_reads_only (d : Database) :
  ∃ listing,
    run get_activities d = (Return listing, d)
    ∧ ∀ n, is_Some (listing !! n) ↔ ∃ a, a ∈ activities d ∧ name a = n.
Proof.
  eexists. split; [apply get_activities_run|].
  intros n. rewrite foldl_insert_is_Some, lookup_empty, list_elem_of_fmap.
  split.
  - intros [[? [=]]|(a & -> & Ha)]. by exists a.
  - intros (a & Ha & <-). right. by exists a.
Qed.

Section Loaded.

Lemma filter_email_absent (ps : list Participant) e :
  mkParticipant e ∉ ps → filter (λ p, email p = e) ps = [].
Proof.
  induction ps as [|p ps IH]; intros Hp; [done|].
  apply not_elem_of_cons in Hp as [Hne Hp].
  rewrite filter_cons_False; [by apply IH|].
  intros He. apply Hne. destruct p. simpl in He. by subst.
Qed.

Lemma filter_email_unique (ps : list Participant) e :
  NoDup ps → mkParticipant e ∈ ps →
  filter (λ p, email p = e) ps = [mkParticipant e].
Proof.
  induction 1 as [|p ps Hp Hnd IH]; intros Hin.
  - by apply not_elem_of_nil in Hin.
  - destruct (decide (email p = e)) as [He|He].
    + assert (p = mkParticipant e) as -> by (destruct p; simpl in He; by subst).
      rewrite filter_cons_True by done. by rewrite filter_email_absent.
    + rewrite filter_cons_False by done. apply IH.
      apply elem_of_cons in Hin as [<-|Hin]; [done|done].
Qed.

(** With unique participant rows and no dangling association row, what
    [activity.participants] loads is one participant per association row
    of the activity, in the order of the rows. *)
Lemma loaded_emails d a :
  NoDup (participants d) → referential d →
  email <$> activity_participants_of d a
  = (filter (λ r, r.1 = id a) (activity_participants d)).*2.
Proof.
  intros Hnd Hfk. unfold activity_participants_of.
  unfold referential in Hfk.
  induction (activity_participants d) as [|[i e] l IH]; [done|].
  rewrite bind_cons, fmap_app, IH, filter_cons; cbn [fst snd].
  - case_decide as Hi; [|done].
    rewrite filter_email_unique; [done|done|].
    apply (Hfk (i, e)). left.
  - intros r Hr. apply Hfk. by right.
Qed.

Lemma association_emails_NoDup (l : list Association) i :
  NoDup l → NoDup (filter (λ r, r.1 = i) l).*2.
Proof.
  intros Hnd. apply NoDup_fmap_2_strong; [|by apply NoDup_filter].
  intros [i1 e1] [i2 e2] [H1 _]%list_elem_of_filter [H2 _]%list_elem_of_filter.
  simpl in *. congruence.
Qed.

End Loaded.

(** X2.  On a consistent store, the entry [GET /activities] returns under
    the name of an activity row carries that row's description, schedule
    and capacity, and as participants exactly the emails of the activity's
    association rows, in the order the rows were inserted and with no
    email listed twice. *)
Theorem get_activities_entry (d : Database) (a : Activity) :
  consistent d →
  a ∈ activities d →
  ∃ listing,
    run get_activities d = (Return listing, d)
    ∧ listing !! name a =
        Some (Details.mk (description a) (schedule a) (max_participants a)
                (filter (λ r, r.1 = id a) (activity_participants d)).*2)
    ∧ NoDup (filter (λ r, r.1 = id a) (activity_participants d)).*2.
Proof.
  intros [_ Hnames Hemails Hpairs Hfk] Ha.
  eexists. split; [apply get_activities_run|]. split.
  - rewrite (foldl_insert_lookup (details_of d)) by done.
    unfold details_of. by rewrite loaded_emails.
  - by apply association_emails_NoDup.
Qed.

Lemma get_activities_entry_witness :
  ∃ listing,
    run get_activities seeded = (Return listing, seeded)
    ∧ listing !! "Gym Class" =
        Some (Details.mk "Physical education and sports activities"
                "Mondays, Wednesdays, Fridays, 2:00 PM - 3:00 PM" 30
                (filter (λ r, r.1 = 3) (activity_participants seeded)).*2)
    ∧ NoDup (filter (λ r, r.1 = 3) (activity_participants seeded)).*2.
Proof.
  apply (get_activities_entry seeded
           (mkActivity 3 "Gym Class"
              "Physical education and sports activities"
              "Mondays, Wednesdays, Fridays, 2:00 PM - 3:00 PM" 30)).
  - apply consistent_seeded.
  - apply (bool_decide_unpack _). vm_compute. exact I.
Defined.

(** ** What decides a response *)

Section Responses.

Context (d : Database) (A E : string) (a : Activity).
Hypothesis Ha : activity_by_name A d = Some a.



End Responses.



(** ** What no request does *)

Section Steps.

Context (d : Database) (A E : string).

Lemma signup_activities :
  activities (run (signup_for_activity A E) d).2 = activities d.
Proof.
  by destruct (signup_cases d A E)
    as [[_ ->]|[(a & _ & _ & _ & ->)|(a & _ & _ & ->)]].
Qed.

Lemma unregister_activities :
  activities (run (unregister_from_activity A E) d).2 = activities d.
Proof.
  by destruct (unregister_cases d A E)
    as [[_ ->]|[(a & _ & _ & ->)|(a & _ & _ & _ & ->)]].
Qed.

Lemma unregister_participants :
  participants (run (unregister_from_activity A E) d).2 = participants d.
Proof.
  by destruct (unregister_cases d A E)
    as [[_ ->]|[(a & _ & _ & ->)|(a & _ & _ & _ & ->)]].
Qed.

Lemma signup_participants :
  participants (run (signup_for_activity A E) d).2 = participants d
  ∨ ((mkParticipant E ∉ participants d)
     ∧ participants (run (signup_for_activity A E) d).2
       = participants d ++ [mkParticipant E]).
Proof.
  destruct (signup_cases d A E)
    as [[_ ->]|[(a & _ & _ & _ & ->)|(a & _ & _ & ->)]];
    [by left|by left|].
  simpl. case_decide; [by left|by right].
Qed.

End Steps.

Lemma reachable_activities d : reachable d → activities d = activities seeded.
Proof.
  induction 1 as [|d A E _ IH|d A E _ IH]; [done| |].
  - by rewrite signup_activities.
  - by rewrite unregister_activities.
Qed.

(** X4.  No sequence of signup and unregister requests creates, changes
    or deletes an activity: in every reachable store the activities table
    is the seeded one, so a name is found exactly when it was found at
    start-up, and finds the same row. *)
Theorem activities_never_change (d : Database) :
  reachable d →
  activities d = activities seeded
  ∧ ∀ n, activity_by_name n d = activity_by_name n seeded.
Proof.
  intros Hd%reachable_activities. split; [done|].
  intros n. unfold activity_by_name. by rewrite Hd.
Qed.

Lemma activities_never_change_witness :
  activities
    (run (unregister_from_activity "Gym Class" "john@mergington.edu")
       (run (signup_for_activity "Chess Club" "john@mergington.edu")
          seeded).2).2
  = activities seeded
  ∧ ∀ n,
      activity_by_name n
        (run (unregister_from_activity "Gym Class" "john@mergington.edu")
           (run (signup_for_activity "Chess Club" "john@mergington.edu")
              seeded).2).2
      = activity_by_name n seeded.
Proof.
  apply activities_never_change.
  apply reachable_unregister, reachable_signup, reachable_seeded.
Defined.

(** X5.  Participant rows are never deleted or changed: a signup leaves
    the participants table as it was or appends the single row of its
    email, and then only if that row was missing; an unregister leaves the
    table as it was, even when it removes the participant's last
    enrolment.  This holds for every store and however the request
    ends. *)
Theorem participants_never_deleted (d : Database) (A E : string) :
  (participants (run (signup_for_activity A E) d).2 = participants d
   ∨ ((mkParticipant E ∉ participants d)
      ∧ participants (run (signup_for_activity A E) d).2
        = participants d ++ [mkParticipant E]))
  ∧ participants d `prefix_of` participants (run (signup_for_activity A E) d).2
  ∧ participants (run (unregister_from_activity A E) d).2 = participants d.
Proof.
  split; [apply signup_participants|]. split; [|apply unregister_participants].
  destruct (signup_participants d A E) as [->|[_ ->]]; [done|].
  by apply prefix_app_r.
Qed.

(** X6.  Signup and unregister keep a consistent store consistent,
    whatever their arguments and however they end: the keys stay unique
    (the INSERT of a participant never meets a taken email), no pair is
    entered twice in the association table and no association row is left
    without its participant row. *)
Theorem requests_preserve_consistency (d : Database) (A E : string) :
  consistent d →
  consistent (run (signup_for_activity A E) d).2
  ∧ consistent (run (unregister_from_activity A E) d).2.
Proof.
  intros Hd. split; [by apply consistent_signup|by apply consistent_unregister].
Qed.

Lemma requests_preserve_consistency_witness :
  consistent (run (signup_for_activity "Gym Class" "emma@mergington.edu")
                seeded).2
  ∧ consistent (run (unregister_from_activity "Gym Class"
                       "emma@mergington.edu") seeded).2.
Proof.
  apply requests_preserve_consistency, consistent_seeded.
Defined.

(** X7.  Start-up does not load the sample data twice: on a store that
    holds an activity row [init_sample_data] returns at its first check
    and writes nothing, and every reachable store is such a store. *)
Theorem init_sample_data_once (d : Database) :
  activities d ≠ [] ∨ reachable d →
  run init_sample_data d = (Return (), d).
Proof.
  intros Hd.
  assert (activities d ≠ []) as Hne.
  { destruct Hd as [Hd|Hd%reachable_activities]; [exact Hd|].
    rewrite Hd. vm_compute. discriminate. }
  unfold init_sample_data. exec. unfold first_activity.
  destruct (activities d) as [|a l]; [exfalso; by apply Hne | reflexivity].
Qed.

Lemma init_sample_data_once_witness :
  run init_sample_data
    (run (signup_for_activity "Chess Club" "emma@mergington.edu") seeded).2
  = (Return (),
     (run (signup_for_activity "Chess Club" "emma@mergington.edu") seeded).2).
Proof.
  apply init_sample_data_once. right.
  apply reachable_signup, reachable_seeded.
Defined.

(** X8.  The sample data shows through: in every reachable store
    [GET /activities] has exactly the names of [sample_activities] as
    keys and returns each with its configured description, schedule and
    capacity; right after start-up the whole dictionary, participant
    lists included, is [sample_activities]. *)
Theorem sample_activities_listed (d : Database) :
  reachable d →
  ∃ listing,
    run get_activities d = (Return listing, d)
    ∧ (∀ n, is_Some (listing !! n) ↔ n ∈ sample_activities.*1)
    ∧ (∀ n sample, (n, sample) ∈ sample_activities →
         ∃ details,
           listing !! n = Some details
           ∧ Details.description details = Details.description sample
           ∧ Details.schedule details = Details.schedule sample
           ∧ Details.max_participants details
             = Details.max_participants sample)
    ∧ (d = seeded → listing = list_to_map sample_activities).
Proof.
  intros Hd%reachable_activities.
  exists (foldl (λ m b, <[name b := details_of d b]> m) ∅ (activities d)).
  split; [apply get_activities_run|].
  assert (NoDup (name <$> activities seeded)) as Hnames
    by (apply (bool_decide_unpack _); vm_compute; exact I).
  split; [|split].
  - intros n. rewrite foldl_insert_is_Some, lookup_empty, Hd.
    split; [by intros [[? [=]]|?] | by right].
  - intros n sample Hin. rewrite Hd.
    assert (∃ a, a ∈ activities seeded ∧ name a = n
                 ∧ description a = Details.description sample
                 ∧ schedule a = Details.schedule sample
                 ∧ max_participants a = Details.max_participants sample)
      as (a & Ha & <- & Hds & Hsc & Hmx).
    { assert (Forall2 (λ (a : Activity) (s : string * Details.t),
                         name a = s.1
                         ∧ description a = Details.description s.2
                         ∧ schedule a = Details.schedule s.2
                         ∧ max_participants a = Details.max_participants s.2)
                      (activities seeded) sample_activities) as Hrows
        by (apply (bool_decide_unpack _); vm_compute; exact I).
      apply list_elem_of_lookup in Hin as [i Hi].
      destruct (Forall2_lookup_r _ _ _ _ _ Hrows Hi) as (a & Ha & Hrow).
      exists a. split; [exact (list_elem_of_lookup_2 _ _ _ Ha)|exact Hrow]. }
    exists (details_of d a). split.
    + exact (foldl_insert_lookup (details_of d) _ ∅ a Hnames Ha).
    + simpl. repeat split; assumption.
  - intros ->. vm_compute. reflexivity.
Qed.

Lemma sample_activities_listed_witness :
  ∃ listing,
    run get_activities seeded = (Return listing, seeded)
    ∧ (∀ n, is_Some (listing !! n) ↔ n ∈ sample_activities.*1)
    ∧ (∀ n sample, (n, sample) ∈ sample_activities →
         ∃ details,
           listing !! n = Some details
           ∧ Details.description details = Details.description sample
           ∧ Details.schedule details = Details.schedule sample
           ∧ Details.max_participants details
             = Details.max_participants sample)
    ∧ (seeded = seeded → listing = list_to_map sample_activities).
Proof.
  apply sample_activities_listed, reachable_seeded.
Defined.

(** ** Requests in sequence *)

Lemma remove_snoc_Permutation (x : Association) (l : list Association) :
  x ∈ l → remove x l ++ [x] ≡ₚ l.
Proof.
  induction l as [|y l IH]; intros Hx; [by apply not_elem_of_nil in Hx|].
  simpl. case_decide as Hy.
  - subst y. by rewrite <- Permutation_cons_append.
  - apply elem_of_cons in Hx as [->|Hx]; [done|].
    simpl. by rewrite IH.
Qed.

(** X9.  An unregister undoes a signup: from a store where [A] names an
    activity and [E] has no association row for it, signup followed by
    unregister leaves the activities and the association table exactly as
    they were.  Only the participant row of [E] stays behind if the signup
    had to create it; if [E] was a participant before, the whole store is
    back to what it was. *)
Theorem signup_then_unregister_restores
    (d : Database) (A E : string) (a : Activity) :
  activity_by_name A d = Some a →
  (id a, E) ∉ activity_participants d →
  ∃ d1 d2,
    run (signup_for_activity A E) d
      = (Return (mkMessage ("Signed up " +:+ E +:+ " for " +:+ A)), d1)
    ∧ run (unregister_from_activity A E) d1
      = (Return (mkMessage ("Unregistered " +:+ E +:+ " from " +:+ A)), d2)
    ∧ activities d2 = activities d
    ∧ activity_participants d2 = activity_participants d
    ∧ participants d2 =
        (if decide (mkParticipant E ∈ participants d)
         then participants d
         else participants d ++ [mkParticipant E])
    ∧ (mkParticipant E ∈ participants d → d2 = d).
Proof.
  intros Ha Hr.
  exists (after_signup d a E), (after_unregister (after_signup d a E) a E).
  assert (activity_participants (after_unregister (after_signup d a E) a E)
          = activity_participants d) as Hrows
    by (simpl; by apply remove_app_fresh).
  split; [by apply signup_fresh|]. split.
  { apply unregister_signed_up.
    - by apply after_signup_activity.
    - apply after_signup_participant.
    - apply after_signup_association. }
  split; [done|]. split; [exact Hrows|]. split; [done|].
  intros Hp. destruct d as [acts parts rows]. unfold after_unregister.
  simpl in *. rewrite Hrows. by rewrite decide_True.
Qed.

Lemma signup_then_unregister_restores_witness :
  ∃ d1 d2,
    run (signup_for_activity "Chess Club" "emma@mergington.edu") seeded
      = (Return (mkMessage "Signed up emma@mergington.edu for Chess Club"),
         d1)
    ∧ run (unregister_from_activity "Chess Club" "emma@mergington.edu") d1
      = (Return
           (mkMessage "Unregistered emma@mergington.edu from Chess Club"),
         d2)
    ∧ activities d2 = activities seeded
    ∧ activity_participants d2 = activity_participants seeded
    ∧ participants d2 =
        (if decide (mkParticipant "emma@mergington.edu" ∈ participants seeded)
         then participants seeded
         else participants seeded ++ [mkParticipant "emma@mergington.edu"])
    ∧ (mkParticipant "emma@mergington.edu" ∈ participants seeded →
       d2 = seeded).
Proof.
  apply (signup_then_unregister_restores seeded "Chess Club"
           "emma@mergington.edu"
           (mkActivity 1 "Chess Club"
              "Learn strategies and compete in chess tournaments"
              "Fridays, 3:30 PM - 5:00 PM" 12)).
  - reflexivity.
  - apply (bool_decide_unpack _). vm_compute. exact I.
Defined.

(** X10.  A signup undoes an unregister up to the order of the rows: on a
    store where the participant [E] is enrolled in [A] and pairs are
    unique, unregister followed by signup both return, the activities and
    participants tables are as before, and the association table holds
    the same rows, the pair of [E] and [A] having moved to the end. *)
Theorem unregister_then_signup_restores
    (d : Database) (A E : string) (a : Activity) :
  activity_by_name A d = Some a →
  mkParticipant E ∈ participants d →
  (id a, E) ∈ activity_participants d →
  NoDup (activity_participants d) →
  ∃ d1 d2,
    run (unregister_from_activity A E) d
      = (Return (mkMessage ("Unregistered " +:+ E +:+ " from " +:+ A)), d1)
    ∧ run (signup_for_activity A E) d1
      = (Return (mkMessage ("Signed up " +:+ E +:+ " for " +:+ A)), d2)
    ∧ activities d2 = activities d
    ∧ participants d2 = participants d
    ∧ activity_participants d2
      = remove (id a, E) (activity_participants d) ++ [(id a, E)]
    ∧ activity_participants d2 ≡ₚ activity_participants d.
Proof.
  intros Ha Hp Hr Hnd.
  exists (after_unregister d a E), (after_signup (after_unregister d a E) a E).
  split; [by apply unregister_signed_up|]. split.
  { apply signup_fresh; [exact Ha|]. by apply after_unregister_gone. }
  split; [done|]. split; [simpl; by rewrite decide_True|].
  split; [done|]. simpl. by apply remove_snoc_Permutation.
Qed.

Lemma unregister_then_signup_restores_witness :
  ∃ d1 d2,
    run (unregister_from_activity "Chess Club" "michael@mergington.edu")
        seeded
      = (Return
           (mkMessage "Unregistered michael@mergington.edu from Chess Club"),
         d1)
    ∧ run (signup_for_activity "Chess Club" "michael@mergington.edu") d1
      = (Return
           (mkMessage "Signed up michael@mergington.edu for Chess Club"), d2)
    ∧ activities d2 = activities seeded
    ∧ participants d2 = participants seeded
    ∧ activity_participants d2
      = remove (1, "michael@mergington.edu") (activity_participants seeded)
        ++ [(1, "michael@mergington.edu")]
    ∧ activity_participants d2 ≡ₚ activity_participants seeded.
Proof.
  apply (unregister_then_signup_restores seeded "Chess Club"
           "michael@mergington.edu"
           (mkActivity 1 "Chess Club"
              "Learn strategies and compete in chess tournaments"
              "Fridays, 3:30 PM - 5:00 PM" 12)).
  - reflexivity.
  - apply (bool_decide_unpack _). vm_compute. exact I.
  - apply (bool_decide_unpack _). vm_compute. exact I.
  - apply (bool_decide_unpack _). vm_compute. exact I.
Defined.

(** ** Requests about different pairs *)

Lemma NoDup_fmap_elem_inj {A B} (f : A → B) (l : list A) x y :
  NoDup (f <$> l) → x ∈ l → y ∈ l → f x = f y → x = y.
Proof.
  induction l as [|z l IH]; intros Hnd Hx Hy Hxy.
  - by apply not_elem_of_nil in Hx.
  - rewrite fmap_cons in Hnd. apply NoDup_cons in Hnd as [Hz Hnd].
    apply elem_of_cons in Hx as [->|Hx]; apply elem_of_cons in Hy as [->|Hy].
    + done.
    + exfalso. apply Hz. rewrite Hxy. apply list_elem_of_fmap. eauto.
    + exfalso. apply Hz. rewrite <- Hxy. apply list_elem_of_fmap. eauto.
    + by apply IH.
Qed.

Section Responses_ext.

Context (d d' : Database) (A E : string).
Hypothesis Hacts : activities d' = activities d.
Hypothesis Henrolled :
  ∀ a, activity_by_name A d = Some a →
    (mkParticipant E ∈ participants d' ∧ (id a, E) ∈ activity_participants d')
    ↔ (mkParticipant E ∈ participants d ∧ (id a, E) ∈ activity_participants d).

Lemma activity_by_name_ext : activity_by_name A d' = activity_by_name A d.
Proof. unfold activity_by_name. by rewrite Hacts. Qed.

(** The response of a signup depends on the store only through the name
    lookup and through whether the participant is enrolled. *)
Lemma signup_response_ext :
  (run (signup_for_activity A E) d').1 = (run (signup_for_activity A E) d).1.
Proof.
  pose proof activity_by_name_ext as Hname.
  destruct (signup_cases d A E)
    as [[Hn ->]|[(a & Ha & Hp & Hr & ->)|(a & Ha & Hfresh & ->)]]; simpl.
  - rewrite Hn in Hname. by rewrite signup_not_found.
  - rewrite Ha in Hname.
    destruct (proj2 (Henrolled a Ha) (conj Hp Hr)) as [Hp' Hr'].
    by rewrite (signup_conflict d' A E a).
  - rewrite Ha in Hname.
    destruct (signup_cases d' A E)
      as [[Hn' _]|[(a' & Ha' & Hp' & Hr' & _)|(a' & _ & _ & ->)]];
      [congruence| |done].
    assert (a' = a) as -> by congruence.
    exfalso. by apply Hfresh, Henrolled.
Qed.

Lemma unregister_response_ext :
  (run (unregister_from_activity A E) d').1
  = (run (unregister_from_activity A E) d).1.
Proof.
  pose proof activity_by_name_ext as Hname.
  destruct (unregister_cases d A E)
    as [[Hn ->]|[(a & Ha & Hno & ->)|(a & Ha & Hp & Hr & ->)]]; simpl.
  - rewrite Hn in Hname. by rewrite unregister_not_found.
  - rewrite Ha in Hname.
    destruct (unregister_cases d' A E)
      as [[Hn' _]|[(a' & _ & _ & ->)|(a' & Ha' & Hp' & Hr' & _)]];
      [congruence|done|].
    assert (a' = a) as -> by congruence.
    exfalso.
    destruct (proj1 (Henrolled a Ha) (conj Hp' Hr')) as [Hp Hr].
    by destruct Hno.
  - rewrite Ha in Hname.
    destruct (proj2 (Henrolled a Ha) (conj Hp Hr)) as [Hp' Hr'].
    by rewrite (unregister_signed_up d' A E a).
Qed.

End Responses_ext.

(** X11.  Requests about different pairs do not interfere: on a
    consistent store, after a signup or an unregister for [(A1, E1)],
    however it ended, a signup and an unregister for any other pair
    [(A, E)] get the response they would have got before it. *)
Theorem requests_do_not_interfere
    (d d1 : Database) (A1 E1 A E : string) :
  consistent d →
  (A1, E1) ≠ (A, E) →
  d1 = (run (signup_for_activity A1 E1) d).2
  ∨ d1 = (run (unregister_from_activity A1 E1) d).2 →
  (run (signup_for_activity A E) d1).1 = (run (signup_for_activity A E) d).1
  ∧ (run (unregister_from_activity A E) d1).1
    = (run (unregister_from_activity A E) d).1.
Proof.
  intros [Hids _ _ _ Hfk] Hne Hd1.
  assert (activities d1 = activities d) as Hacts.
  { destruct Hd1 as [->| ->];
      [apply signup_activities|apply unregister_activities]. }
  assert (∀ a a1, activity_by_name A d = Some a →
                  activity_by_name A1 d = Some a1 →
                  (id a, E) ≠ (id a1, E1)) as Hpair.
  { intros a a1 [Ha Hn]%activity_by_name_Some [Ha1 Hn1]%activity_by_name_Some.
    intros [= Hid ->]. apply Hne. f_equal. rewrite <- Hn, <- Hn1.
    f_equal. symmetry. by apply (NoDup_fmap_elem_inj id (activities d)). }
  assert (∀ a, activity_by_name A d = Some a →
            (mkParticipant E ∈ participants d1
             ∧ (id a, E) ∈ activity_participants d1)
            ↔ (mkParticipant E ∈ participants d
               ∧ (id a, E) ∈ activity_participants d)) as Henrolled.
  { intros a Ha. destruct Hd1 as [->| ->].
    - destruct (signup_cases d A1 E1)
        as [[_ ->]|[(a1 & _ & _ & _ & ->)|(a1 & Ha1 & _ & ->)]];
        [done|done|].
      pose proof (Hpair a a1 Ha Ha1) as Hp. simpl.
      rewrite elem_of_app, list_elem_of_singleton. split.
      + intros [_ [Hr|Hr]]; [|done]. split; [|done]. by apply (Hfk (id a, E)).
      + intros [Hin Hr]. split; [|by left].
        case_decide; [done|]. apply elem_of_app. by left.
    - destruct (unregister_cases d A1 E1)
        as [[_ ->]|[(a1 & _ & _ & ->)|(a1 & Ha1 & _ & _ & ->)]];
        [done|done|].
      pose proof (Hpair a a1 Ha Ha1) as Hp. simpl.
      by rewrite elem_of_remove_ne. }
  split.
  - by apply signup_response_ext.
  - by apply unregister_response_ext.
Qed.

Lemma requests_do_not_interfere_witness :
  (run (signup_for_activity "Chess Club" "emma@mergington.edu")
     (run (signup_for_activity "Gym Class" "emma@mergington.edu") seeded).2).1
  = (run (signup_for_activity "Chess Club" "emma@mergington.edu") seeded).1
  ∧ (run (unregister_from_activity "Chess Club" "emma@mergington.edu")
       (run (signup_for_activity "Gym Class" "emma@mergington.edu")
          seeded).2).1
    = (run (unregister_from_activity "Chess Club" "emma@mergington.edu")
         seeded).1.
Proof.
  apply (requests_do_not_interfere seeded _ "Gym Class"
           "emma@mergington.edu" "Chess Club" "emma@mergington.edu").
  - apply consistent_seeded.
  - discriminate.
  - left. reflexivity.
Defined.

Lemma foldl_insert_ext (g g' : Activity → Details.t) (l : list Activity)
      (m m' : gmap string Details.t) n :
  (∀ b, b ∈ l → name b = n → g b = g' b) →
  m !! n = m' !! n →
  foldl (λ m a, <[name a := g a]> m) m l !! n
  = foldl (λ m a, <[name a := g' a]> m) m' l !! n.
Proof.
  revert m m'. induction l as [|b l IH]; intros m m' Hg Hm; simpl; [done|].
  apply IH.
  - intros b' Hb'. apply Hg. by right.
  - destruct (decide (name b = n)) as [Hn|Hn].
    + rewrite <- Hn, !lookup_insert_eq. f_equal. apply Hg; [left|done].
    + by rewrite !lookup_insert_ne.
Qed.

(** X12.  What [GET /activities] returns under the other names is out of
    reach of a request: on a consistent store, after a signup or an
    unregister for the activity named [A], however it ended, the entry
    under any other name [B] is the one returned before, participants
    included. *)
Theorem other_listings_unchanged
    (d d1 : Database) (A E B : string) :
  consistent d →
  B ≠ A →
  d1 = (run (signup_for_activity A E) d).2
  ∨ d1 = (run (unregister_from_activity A E) d).2 →
  ∃ listing listing1,
    run get_activities d = (Return listing, d)
    ∧ run get_activities d1 = (Return listing1, d1)
    ∧ listing1 !! B = listing !! B.
Proof.
  intros [Hids _ _ _ Hfk] Hne Hd1.
  assert (activities d1 = activities d) as Hacts.
  { destruct Hd1 as [->| ->];
      [apply signup_activities|apply unregister_activities]. }
  do 2 eexists. split; [apply get_activities_run|].
  split; [apply get_activities_run|].
  rewrite Hacts. apply foldl_insert_ext; [|done].
  intros b Hb Hname. unfold details_of. f_equal. f_equal.
  assert (∀ a, activity_by_name A d = Some a → id b ≠ id a) as Hother.
  { intros a [Ha Hn]%activity_by_name_Some Hid. apply Hne.
    rewrite <- Hname, <- Hn. f_equal.
    by apply (NoDup_fmap_elem_inj id (activities d)). }
  destruct Hd1 as [->| ->].
  - destruct (signup_cases d A E)
      as [[_ ->]|[(a & _ & _ & _ & ->)|(a & Ha & _ & ->)]];
      [done|done|].
    simpl. apply after_signup_other_activity; [done|by apply Hother].
  - destruct (unregister_cases d A E)
      as [[_ ->]|[(a & _ & _ & ->)|(a & Ha & _ & _ & ->)]];
      [done|done|].
    simpl. apply after_unregister_other_activity. by apply Hother.
Qed.

Lemma other_listings_unchanged_witness :
  ∃ listing listing1,
    run get_activities seeded = (Return listing, seeded)
    ∧ run get_activities
        (run (signup_for_activity "Chess Club" "emma@mergington.edu")
           seeded).2
      = (Return listing1,
         (run (signup_for_activity "Chess Club" "emma@mergington.edu")
            seeded).2)
    ∧ listing1 !! "Programming Class" = listing !! "Programming Class".
Proof.
  apply (other_listings_unchanged seeded _ "Chess Club"
           "emma@mergington.edu" "Programming Class").
  - apply consistent_seeded.
  - discriminate.
  - left. reflexivity.
Defined.

(** ** Outside the consistent stores *)

(** X13.  The signup check looks for the association only through an
    existing participant row.  When the association row is there but the
    participant row is missing, signup does not refuse: it returns,
    creates the participant row and enters the pair a second time. *)
Theorem signup_over_dangling_association
    (d : Database) (A E : string) (a : Activity) :
  activity_by_name A d = Some a →
  mkParticipant E ∉ participants d →
  (id a, E) ∈ activity_participants d →
  ∃ d',
    run (signup_for_activity A E) d
      = (Return (mkMessage ("Signed up " +:+ E +:+ " for " +:+ A)), d')
    ∧ participants d' = participants d ++ [mkParticipant E]
    ∧ activity_participants d' = activity_participants d ++ [(id a, E)]
    ∧ ¬ NoDup (activity_participants d').
Proof.
  intros Ha Hp Hr. eexists. split; [by apply signup_new_participant|].
  split; [done|]. split; [done|]. simpl.
  intros (_ & Hdisj & _)%NoDup_app. apply (Hdisj _ Hr). left.
Qed.

Lemma signup_over_dangling_association_witness :
  ∃ d',
    run (signup_for_activity "Solo" "a@mergington.edu") dangling
      = (Return (mkMessage "Signed up a@mergington.edu for Solo"), d')
    ∧ participants d' =
        participants dangling ++ [mkParticipant "a@mergington.edu"]
    ∧ activity_participants d' =
        activity_participants dangling ++ [(1, "a@mergington.edu")]
    ∧ ¬ NoDup (activity_participants d').
Proof.
  apply (signup_over_dangling_association dangling "Solo" "a@mergington.edu"
           (mkActivity 1 "Solo" "One seat" "Daily" 1)).
  - reflexivity.
  - apply (bool_decide_unpack _). vm_compute. exact I.
  - apply (bool_decide_unpack _). vm_compute. exact I.
Defined.
